(** * A shallow embedding of [index.tsx]

    The page collects a text prompt and an optional uploaded image, asks a
    text model for a refined prompt ([enhancePrompt]), asks an image model
    for pictures of it ([generateImages]) and renders them in a gallery
    ([handleGeneration] sequences the two).

    The handlers are embedded in a state-and-exception monad over a record
    [World] that holds the module-level variable, the DOM elements the
    handlers touch and an ordered trace of what leaves the page (remote
    calls, alerts, console output).  The two endpoints of the SDK are
    arguments of the handlers: an endpoint either resolves with a response
    or rejects with an error.

    A run of [handleGeneration] is followed from the click to the end of its
    [finally] block; what other handlers do while it awaits a remote call is
    not part of a run. *)

From Stdlib Require Import List NArith Arith Bool Ascii String Lia DecimalString.
Import ListNotations.

(** ** JavaScript strings and the few primitives the page uses *)

Module JS.

(** A string is a sequence of UTF-16 code units. *)
Definition char16 := N.
Definition jsstring := list char16.

(** The code units of an ASCII literal of the source. *)
Definition lit (s : string) : jsstring :=
  map N_of_ascii (list_ascii_of_string s).

(** ECMAScript WhiteSpace and LineTerminator code points, the ones
    [String.prototype.trim] strips. *)
Definition is_white_space (c : char16) : bool :=
  ((9 <=? c) && (c <=? 13)
   || (c =? 32) || (c =? 160) || (c =? 5760)
   || (8192 <=? c) && (c <=? 8202)
   || (c =? 8232) || (c =? 8233) || (c =? 8239) || (c =? 8287)
   || (c =? 12288) || (c =? 65279))%N.

Fixpoint trimStart (s : jsstring) : jsstring :=
  match s with
  | c :: s' => if is_white_space c then trimStart s' else s
  | [] => []
  end.

Definition trimEnd (s : jsstring) : jsstring := rev (trimStart (rev s)).

Definition trim (s : jsstring) : jsstring := trimEnd (trimStart s).

(** [s.substring(start, end)] for non-negative integer arguments: both are
    clamped to the length and swapped when out of order. *)
Definition substring (s : jsstring) (start end_ : nat) : jsstring :=
  let len := List.length s in
  let a := Nat.min start len in
  let b := Nat.min end_ len in
  let from := Nat.min a b in
  let to := Nat.max a b in
  firstn (to - from) (skipn from s).

(** Truthiness of a string: only the empty string is falsy. *)
Definition truthy (s : jsstring) : bool :=
  match s with [] => false | _ :: _ => true end.

(** Truthiness of a [string | null] (or possibly absent) value. *)
Definition truthy_opt (o : option jsstring) : bool :=
  match o with Some s => truthy s | None => false end.

(** A non-negative integer Number converted to a string inside a template
    literal: its decimal digits. *)
Definition Number_toString (n : N) : jsstring :=
  lit (NilEmpty.string_of_uint (N.to_uint n)).

End JS.
Import JS.

(** ** The SDK: requests, responses and the two endpoints *)

Module GenAI.

Inductive Part : Type :=
| InlineData (mimeType data : jsstring)
| Text (text : jsstring).

Record Content : Type := { parts : list Part }.

Record GenerateContentConfig : Type := { systemInstruction : jsstring }.

Record GenerateContentParameters : Type := {
  content_model : jsstring;
  contents : Content;
  content_config : GenerateContentConfig }.

(** [response.text], with the type [enhancePrompt] declares for it. *)
Record GenerateContentResponse : Type := { text : jsstring }.

Record GenerateImagesConfig : Type := {
  numberOfImages : N;
  aspectRatio : jsstring;
  outputMimeType : jsstring }.

Record GenerateImagesParameters : Type := {
  images_model : jsstring;
  prompt : jsstring;
  images_config : GenerateImagesConfig }.

(** Every field the page reads is optional in the SDK's types. *)
Record Image : Type := { imageBytes : option jsstring }.
Record GeneratedImage : Type := { image : option Image }.
Record GenerateImagesResponse : Type := {
  generatedImages : option (list GeneratedImage) }.

Inductive JsError : Type :=
| ServiceError (message : jsstring)
| TypeError (message : jsstring).

(** How the promise of a remote call settles. *)
Inductive Settled (A : Type) : Type :=
| Fulfilled (value : A)
| Rejected (reason : JsError).
Arguments Fulfilled {A} value.
Arguments Rejected {A} reason.

(** [ai.models]: the page decides nothing about the answers, so the two
    endpoints are arbitrary functions of the request.  The image endpoint
    may resolve with no response object at all, which the page guards
    against with [response?.]. *)
Record Models : Type := {
  generateContent :
    GenerateContentParameters -> Settled GenerateContentResponse;
  generateImages :
    GenerateImagesParameters -> Settled (option GenerateImagesResponse) }.

End GenAI.
Import GenAI.

(** ** The page: module state, DOM, and what leaves the page *)

(** A child of the gallery.  Assigning the empty string to [innerHTML]
    removes every child; each non-empty string the page assigns is the
    markup of one [<p class="message">] element, kept as one child holding
    that markup.  An [ImageElement] is an [Image] with its [src] and [alt]. *)
Inductive Node : Type :=
| Markup (html : jsstring)
| ImageElement (src alt : jsstring).

Definition parse_innerHTML (html : jsstring) : list Node :=
  match html with
  | [] => []
  | _ :: _ => [Markup html]
  end.

Inductive ConsoleArg : Type :=
| ArgString (s : jsstring)
| ArgError (e : JsError)
| ArgImagesResponse (r : option GenerateImagesResponse).

Inductive Event : Type :=
| CallGenerateContent (p : GenerateContentParameters)
| CallGenerateImages (p : GenerateImagesParameters)
| Alert (message : jsstring)
| ConsoleLog (args : list ConsoleArg)
| ConsoleError (args : list ConsoleArg).

(** [uploadedImageBase64] is the module-level variable; [imageGallery] is
    [None] when [getElementById] found no gallery element, otherwise the
    children of that element.  [trace] is in order of occurrence. *)
Record World : Type := {
  uploadedImageBase64 : option jsstring;
  promptInput_value : jsstring;
  generateBtn_disabled : bool;
  generateBtn_textContent : jsstring;
  imageGallery : option (list Node);
  trace : list Event }.

(** ** State and exceptions *)

Inductive Completion (A : Type) : Type :=
| Normal (value : A)
| Throw (e : JsError).
Arguments Normal {A} value.
Arguments Throw {A} e.

Definition M (A : Type) : Type := World -> Completion A * World.

Definition ret {A} (a : A) : M A := fun w => (Normal a, w).

Definition bind {A B} (m : M A) (k : A -> M B) : M B :=
  fun w =>
    match m w with
    | (Normal a, w') => k a w'
    | (Throw e, w') => (Throw e, w')
    end.

Definition throw {A} (e : JsError) : M A := fun w => (Throw e, w).

Declare Scope js_scope.
Delimit Scope js_scope with js.
Notation "x <- m ;; k" := (bind m (fun x => k))
  (at level 100, m at next level, right associativity) : js_scope.
Notation "m ;; k" := (bind m (fun _ => k))
  (at level 100, right associativity) : js_scope.
Local Open Scope js_scope.

(** [try { body } catch (error) { handler } finally { final }]: [final]
    runs whatever happened before it, and an exception of its own replaces
    the completion reached so far. *)
Definition try_catch_finally {A}
    (body : M A) (handler : JsError -> M A) (final : M unit) : M A :=
  fun w =>
    let (r, w1) := body w in
    let (r', w2) :=
      match r with
      | Normal a => (Normal a, w1)
      | Throw e => handler e w1
      end in
    match final w2 with
    | (Normal _, w3) => (r', w3)
    | (Throw e, w3) => (Throw e, w3)
    end.

(** [await p] *)
Definition await {A} (p : Settled A) : M A :=
  match p with
  | Fulfilled a => ret a
  | Rejected e => throw e
  end.

Definition read {A} (f : World -> A) : M A := fun w => (Normal (f w), w).

(** Updates of one part of the world. *)
Definition log (events : list Event) (w : World) : World :=
  {| uploadedImageBase64 := uploadedImageBase64 w;
     promptInput_value := promptInput_value w;
     generateBtn_disabled := generateBtn_disabled w;
     generateBtn_textContent := generateBtn_textContent w;
     imageGallery := imageGallery w;
     trace := trace w ++ events |}.

Definition with_button (disabled : bool) (textContent : jsstring) (w : World)
  : World :=
  {| uploadedImageBase64 := uploadedImageBase64 w;
     promptInput_value := promptInput_value w;
     generateBtn_disabled := disabled;
     generateBtn_textContent := textContent;
     imageGallery := imageGallery w;
     trace := trace w |}.

Definition with_gallery (children : list Node) (w : World) : World :=
  {| uploadedImageBase64 := uploadedImageBase64 w;
     promptInput_value := promptInput_value w;
     generateBtn_disabled := generateBtn_disabled w;
     generateBtn_textContent := generateBtn_textContent w;
     imageGallery := Some children;
     trace := trace w |}.

Definition emit (ev : Event) : M unit :=
  fun w => (Normal tt, log [ev] w).

Definition set_generateBtn (disabled : bool) (textContent : jsstring) : M unit :=
  fun w => (Normal tt, with_button disabled textContent w).

(** Property accesses on [imageGallery]; on [null] they throw. *)
Definition imageGallery_set_innerHTML (html : jsstring) : M unit :=
  fun w =>
    match imageGallery w with
    | Some _ => (Normal tt, with_gallery (parse_innerHTML html) w)
    | None => (Throw (TypeError (lit "imageGallery is null")), w)
    end.

Definition imageGallery_appendChild (n : Node) : M unit :=
  fun w =>
    match imageGallery w with
    | Some children => (Normal tt, with_gallery (children ++ [n]) w)
    | None => (Throw (TypeError (lit "imageGallery is null")), w)
    end.

(** Truthiness of [imageGallery]. *)
Definition imageGallery_truthy : M bool :=
  read (fun w => match imageGallery w with Some _ => true | None => false end).

Definition alert (message : jsstring) : M unit := emit (Alert message).
Definition console_log (args : list ConsoleArg) : M unit := emit (ConsoleLog args).
Definition console_error (args : list ConsoleArg) : M unit := emit (ConsoleError args).

(** [array.forEach((x, index) => ...)], from [index] on. *)
Fixpoint forEach {A} (f : A -> nat -> M unit) (l : list A) (index : nat) : M unit :=
  match l with
  | [] => ret tt
  | x :: l' => f x index ;; forEach f l' (S index)
  end.

(** ** The handlers of [index.tsx] *)

(** The markup [<p class="message">text</p>]; code unit 34 is the double
    quote. *)
Definition p_message (text : string) : jsstring :=
  lit "<p class=" ++ [34%N] ++ lit "message" ++ [34%N] ++ lit ">"
  ++ lit text ++ lit "</p>".

Definition validation_alert : jsstring :=
  lit "Please enter a prompt or upload an image.".
Definition thinking_html : jsstring :=
  p_message "Thinking... Gemini is analyzing your idea.".
Definition analyzed_html : jsstring :=
  p_message "Idea analyzed! Now generating images...".
Definition error_html : jsstring :=
  p_message "Error: Could not generate images. Check the console for details.".
Definition no_images_html : jsstring :=
  p_message "No images were generated. This could be due to the safety policy. Try a different prompt.".

Definition system_instruction : jsstring :=
  lit "You are a world-class creative director. Your task is to analyze the user's input (which can be text, an image, or both) and create a single, clear, highly detailed, and vivid prompt for an advanced AI image generation model. The prompt should be a descriptive paragraph, focusing on visual details like subject, style, lighting, composition, and color palette. Output only the prompt itself, without any extra conversation or explanation.".

(** [response?.generatedImages] *)
Definition response_generatedImages (response : option GenerateImagesResponse)
  : option (list GeneratedImage) :=
  match response with
  | Some r => generatedImages r
  | None => None
  end.

(** [generatedImage.image?.imageBytes] *)
Definition image_imageBytes (generatedImage : GeneratedImage) : option jsstring :=
  match image generatedImage with
  | Some i => imageBytes i
  | None => None
  end.

Section Page.

Variable ai : Models.

(** [setLoadingState(isLoading, message = 'Generate Images')]; [None] is
    an omitted argument. *)
Definition setLoadingState (isLoading : bool) (message : option jsstring) : M unit :=
  let message :=
    match message with
    | Some m => m
    | None => lit "Generate Images"
    end in
  set_generateBtn isLoading
    (if isLoading then message else lit "Generate Images").

(** The request [enhancePrompt] builds before it calls the endpoint:
    [parts], [contents] and the argument of [generateContent]. *)
Definition enhancePrompt_request
    (textPrompt : jsstring) (imageBase64 : option jsstring)
  : GenerateContentParameters :=
  let parts : list Part := [] in
  let parts :=
    match imageBase64 with
    | Some data =>
        if truthy data
        then parts ++ [InlineData (lit "image/jpeg") data]
        else parts
    | None => parts
    end in
  let parts :=
    if truthy textPrompt then parts ++ [Text textPrompt] else parts in
  let contents := {| parts := parts |} in
  {| content_model := lit "gemini-2.5-flash";
     contents := contents;
     content_config := {| systemInstruction := system_instruction |} |}.

Definition enhancePrompt (textPrompt : jsstring) (imageBase64 : option jsstring)
  : M jsstring :=
  let request := enhancePrompt_request textPrompt imageBase64 in
  emit (CallGenerateContent request) ;;
  response <- await (generateContent ai request) ;;
  console_log [ArgString (lit "Enhanced prompt by Gemini:");
               ArgString (text response)] ;;
  ret (text response).

(** The body of the [forEach] callback of [generateImages]. *)
Definition render_image (prompt : jsstring)
    (generatedImage : GeneratedImage) (index : nat) : M unit :=
  match image_imageBytes generatedImage with
  | Some bytes =>
      if truthy bytes then
        let src := lit "data:image/jpeg;base64," ++ bytes in
        let alt := substring prompt 0 50 ++ lit "... - Image "
                   ++ Number_toString (N.of_nat index + 1) in
        imageGallery_appendChild (ImageElement src alt)
      else ret tt
  | None => ret tt
  end.

(** The argument of [ai.models.generateImages]. *)
Definition generateImages_request (prompt : jsstring)
  : GenerateImagesParameters :=
  {| images_model := lit "imagen-3.0-generate-002";
     GenAI.prompt := prompt;
     images_config :=
       {| numberOfImages := 3;
          aspectRatio := lit "1:1";
          outputMimeType := lit "image/jpeg" |} |}.

Definition generateImages (prompt : jsstring) : M unit :=
  let request := generateImages_request prompt in
  emit (CallGenerateImages request) ;;
  response <- await (GenAI.generateImages ai request) ;;
  gallery <- imageGallery_truthy ;;
  match (if gallery then response_generatedImages response else None) with
  | Some images =>
      imageGallery_set_innerHTML [] ;;
      (if List.length images =? 0
       then imageGallery_set_innerHTML no_images_html
       else ret tt) ;;
      forEach (render_image prompt) images 0
  | None => ret tt
  end ;;
  console_log [ArgString (lit "Full Imagen response:");
               ArgImagesResponse response].

(** [if (imageGallery) { imageGallery.innerHTML = html; }] *)
Definition show_message (html : jsstring) : M unit :=
  gallery <- imageGallery_truthy ;;
  if gallery then imageGallery_set_innerHTML html else ret tt.

Definition handleGeneration : M unit :=
  textPrompt <- read promptInput_value ;;
  uploaded <- read uploadedImageBase64 ;;
  if negb (truthy (trim textPrompt)) && negb (truthy_opt uploaded) then
    alert validation_alert ;;
    ret tt
  else
    setLoadingState true (Some (lit "Analyzing your idea...")) ;;
    show_message thinking_html ;;
    try_catch_finally
      (uploaded <- read uploadedImageBase64 ;;
       enhancedPrompt <- enhancePrompt textPrompt uploaded ;;
       setLoadingState true (Some (lit "Generating...")) ;;
       show_message analyzed_html ;;
       generateImages enhancedPrompt)
      (fun error =>
         console_error [ArgString (lit "Error during generation process:");
                        ArgError error] ;;
         show_message error_html)
      (setLoadingState false None).

End Page.

(** ** Vocabulary of the properties *)

(** The input check of [handleGeneration]: some text is left after trimming,
    or an uploaded image is stored. *)
Definition has_input (w : World) : bool :=
  truthy (trim (promptInput_value w)) || truthy_opt (uploadedImageBase64 w).

Definition is_remote_call (ev : Event) : bool :=
  match ev with
  | CallGenerateContent _ | CallGenerateImages _ => true
  | _ => false
  end.

(** The remote calls of a trace, in order. *)
Definition remote_calls (t : list Event) : list Event :=
  filter is_remote_call t.

Definition is_image_element (n : Node) : bool :=
  match n with
  | ImageElement _ _ => true
  | Markup _ => false
  end.

(** The [alt] attributes of the image elements among [children]. *)
Fixpoint alt_texts (children : list Node) : list jsstring :=
  match children with
  | [] => []
  | ImageElement _ a :: rest => a :: alt_texts rest
  | Markup _ :: rest => alt_texts rest
  end.

(** The requests a trace holds for each endpoint, in order. *)
Fixpoint content_requests (t : list Event) : list GenerateContentParameters :=
  match t with
  | [] => []
  | CallGenerateContent q :: rest => q :: content_requests rest
  | _ :: rest => content_requests rest
  end.

Fixpoint image_requests (t : list Event) : list GenerateImagesParameters :=
  match t with
  | [] => []
  | CallGenerateImages q :: rest => q :: image_requests rest
  | _ :: rest => image_requests rest
  end.

(** The texts of the text parts of a request, in order. *)
Fixpoint text_parts (ps : list Part) : list jsstring :=
  match ps with
  | [] => []
  | Text t :: rest => t :: text_parts rest
  | InlineData _ _ :: rest => text_parts rest
  end.

(** The children of the gallery; none when the page has no gallery. *)
Definition gallery_children (w : World) : list Node :=
  match imageGallery w with
  | Some children => children
  | None => []
  end.

(** [generatedImage.image?.imageBytes] is truthy. *)
Definition has_bytes (g : GeneratedImage) : bool :=
  truthy_opt (image_imageBytes g).

(** What [forEach (render_image prompt)] appends to the gallery. *)
Fixpoint rendered (prompt : jsstring) (images : list GeneratedImage)
    (index : nat) : list Node :=
  match images with
  | [] => []
  | g :: rest =>
      match image_imageBytes g with
      | Some ((_ :: _) as bytes) =>
          [ImageElement (lit "data:image/jpeg;base64," ++ bytes)
             (firstn 50 prompt ++ lit "... - Image "
              ++ Number_toString (N.of_nat (S index)))]
      | _ => []
      end ++ rendered prompt rest (S index)
  end.

(** The gallery after [generateImages] has looked at a response. *)
Definition render_response (prompt : jsstring)
    (response : option GenerateImagesResponse) (w : World) : World :=
  match imageGallery w, response_generatedImages response with
  | Some _, Some images =>
      with_gallery
        ((match images with [] => [Markup no_images_html] | _ :: _ => [] end)
         ++ rendered prompt images 0) w
  | _, _ => w
  end.

(** [if (imageGallery) imageGallery.innerHTML = html] as a world update. *)
Definition shown (html : jsstring) (w : World) : World :=
  match imageGallery w with
  | Some _ => with_gallery (parse_innerHTML html) w
  | None => w
  end.

(** The world in which the [try] block of [handleGeneration] starts, and the
    one in which its second step starts after the enhancement returned
    [response]. *)
Definition started (w : World) : World :=
  shown thinking_html (with_button true (lit "Analyzing your idea...") w).

Definition enhanced (response : GenerateContentResponse) (w : World) : World :=
  shown analyzed_html
    (with_button true (lit "Generating...")
       (log [CallGenerateContent
               (enhancePrompt_request (promptInput_value w) (uploadedImageBase64 w));
             ConsoleLog [ArgString (lit "Enhanced prompt by Gemini:");
                         ArgString (text response)]]
          (started w))).

(** The [catch] and [finally] blocks as a world update. *)
Definition caught (e : JsError) (w : World) : World :=
  with_button false (lit "Generate Images")
    (shown error_html
       (log [ConsoleError [ArgString (lit "Error during generation process:");
                           ArgError e]] w)).


(** ** Sample data *)

Definition idle (prompt : string) (uploaded : option jsstring)
    (gallery : option (list Node)) : World :=
  {| uploadedImageBase64 := uploaded;
     promptInput_value := lit prompt;
     generateBtn_disabled := false;
     generateBtn_textContent := lit "Generate Images";
     imageGallery := gallery;
     trace := [] |}.

Definition picture (bytes : string) : GeneratedImage :=
  {| image := Some {| imageBytes := Some (lit bytes) |} |}.

(** A service that answers every prompt with [enhanced] and every image
    request with [response]. *)
Definition answering (enhanced : string)
    (response : option GenerateImagesResponse) : Models :=
  {| generateContent := fun _ => Fulfilled {| text := lit enhanced |};
     GenAI.generateImages := fun _ => Fulfilled response |}.

Definition three_pictures : option GenerateImagesResponse :=
  Some {| generatedImages :=
            Some [picture "AAAA"; picture "BBBB"; picture "CCCC"] |}.

(** Services whose first, respectively second, endpoint rejects. *)
Definition failing_enhancement : Models :=
  {| generateContent := fun _ => Rejected (ServiceError (lit "503"));
     GenAI.generateImages := fun _ => Fulfilled three_pictures |}.

Definition failing_images : Models :=
  {| generateContent := fun _ => Fulfilled {| text := lit "X" |};
     GenAI.generateImages := fun _ => Rejected (ServiceError (lit "503")) |}.

(** ** The upload handler *)

(** [s.split(separator)] for a separator of one code unit: the segments
    between its occurrences, at least one. *)
Fixpoint split (separator : char16) (s : jsstring) : list jsstring :=
  match s with
  | [] => [[]]
  | c :: rest =>
      if (c =? separator)%N then [] :: split separator rest
      else
        match split separator rest with
        | segment :: segments => (c :: segment) :: segments
        | [] => [[c]]
        end
  end.

(** The code unit of [','] *)
Definition comma : char16 := 44%N.

(** A child of the preview container: the [img] with its [src], or the
    removal [button] with its [textContent] and [className]. *)
Inductive PreviewNode : Type :=
| PreviewImage (src : jsstring)
| PreviewButton (textContent className : jsstring).

(** The world of the generation handlers together with the two elements
    only the upload handler touches.  [imagePreviewContainer] is [None] when
    the page has no such element. *)
Record Page : Type := {
  world : World;
  imagePreviewContainer : option (list PreviewNode);
  imageUploadInput_value : jsstring }.

Definition P (A : Type) : Type := Page -> Completion A * Page.

(** [uploadedImageBase64 = value]; [None] stands for [null] and for
    [undefined], which the page tells apart nowhere (it only tests the
    variable for truthiness). *)
Definition with_uploaded (value : option jsstring) (w : World) : World :=
  {| uploadedImageBase64 := value;
     promptInput_value := promptInput_value w;
     generateBtn_disabled := generateBtn_disabled w;
     generateBtn_textContent := generateBtn_textContent w;
     imageGallery := imageGallery w;
     trace := trace w |}.

(** A handler of the generation part run on a page. *)
Definition on_world {A} (m : M A) : P A :=
  fun p =>
    let (r, w') := m (world p) in
    (r, {| world := w';
           imagePreviewContainer := imagePreviewContainer p;
           imageUploadInput_value := imageUploadInput_value p |}).

(** [removeBtn.onclick] *)
Definition removeBtn_onclick : P unit :=
  fun p =>
    match imagePreviewContainer p with
    | None => (Throw (TypeError (lit "imagePreviewContainer is null")), p)
    | Some _ =>
        (Normal tt,
         {| world := with_uploaded None (world p);
            imagePreviewContainer := Some [];
            imageUploadInput_value := [] |})
    end.

(** [reader.onloadend], with what [reader.result] holds at that time:
    the data URL, or [null] ([None]) when the read failed. *)
Definition reader_onloadend (reader_result : option jsstring) : P unit :=
  fun p =>
    match reader_result with
    | None => (Throw (TypeError (lit "reader.result is null")), p)
    | Some result =>
        let stored := with_uploaded (nth_error (split comma result) 1) (world p) in
        match imagePreviewContainer p with
        | None =>
            (Throw (TypeError (lit "imagePreviewContainer is null")),
             {| world := stored;
                imagePreviewContainer := None;
                imageUploadInput_value := imageUploadInput_value p |})
        | Some _ =>
            let img := PreviewImage result in
            let removeBtn :=
              PreviewButton [215%N] (lit "remove-image-btn") in
            (Normal tt,
             {| world := stored;
                imagePreviewContainer := Some (([] ++ [img]) ++ [removeBtn]);
                imageUploadInput_value := imageUploadInput_value p |})
        end
    end.

Section Upload.

(** A [File], and what a [FileReader] ends with after [readAsDataURL]. *)
Variable File : Type.
Variable readAsDataURL : File -> option jsstring.

(** [handleImageUpload(event)] with [event.target.files]; its completion is
    the one of the [onloadend] callback, which runs once the read ended. *)
Definition handleImageUpload (files : option (list File)) : P unit :=
  fun p =>
    let file :=
      match files with
      | Some list => nth_error list 0
      | None => None
      end in
    match file, imagePreviewContainer p with
    | Some file, Some _ => reader_onloadend (readAsDataURL file) p
    | _, _ => (Normal tt, p)
    end.

End Upload.
Arguments handleImageUpload {File} readAsDataURL files _.

(** ** Vocabulary of the further properties *)

Definition comma_free (s : jsstring) : bool :=
  forallb (fun c => negb (c =? comma)%N) s.

(** [generatedImage.image?.imageBytes] where it is a string. *)
Definition bytes_of (g : GeneratedImage) : jsstring :=
  match image_imageBytes g with
  | Some bytes => bytes
  | None => []
  end.

(** The alt text [generateImages] gives the entry at position [k]. *)
Definition alt_at (prompt : jsstring) (k : nat) : jsstring :=
  firstn 50 prompt ++ lit "... - Image " ++ Number_toString (N.of_nat k + 1).

(** The entries of a response that have bytes, each with its position. *)
Definition entries_with_bytes (images : list GeneratedImage)
  : list (nat * GeneratedImage) :=
  filter (fun kg => has_bytes (snd kg))
    (combine (seq 0 (List.length images)) images).

Definition blank_page (prompt : string) : Page :=
  {| world := idle prompt None (Some []);
     imagePreviewContainer := Some [];
     imageUploadInput_value := lit "C:\fakepath\cat.png" |}.

Definition png_data_url : jsstring := lit "data:image/png;base64,iVBORw0KGgo=".

(** A reader for files named by what reading them ends with. *)
Definition reading (file : option jsstring) : option jsstring := file.

Definition no_bytes : GeneratedImage := {| image := Some {| imageBytes := None |} |}.

(** A page whose prompt holds white space only, of several kinds. *)
Definition blank_world : World :=
  {| uploadedImageBase64 := Some [];
     promptInput_value := [32; 160; 9; 10; 12288; 65279]%N;
     generateBtn_disabled := false;
     generateBtn_textContent := lit "Generate Images";
     imageGallery := Some [];
     trace := [] |}.

(** * Properties *)

(** ** The primitives on samples *)

Example trim_sample :
  trim (lit "  a cat ") = lit "a cat".
Proof. reflexivity. Qed.

Example substring_sample :
  substring (lit "abcdef") 0 3 = lit "abc".
Proof. reflexivity. Qed.

Example Number_toString_sample :
  Number_toString 12 = lit "12".
Proof. reflexivity. Qed.

(** ** Strings *)

Lemma substring_prefix (s : jsstring) (n : nat) :
  substring s 0 n = firstn n s.
Proof.
  unfold substring. cbn [Nat.min skipn].
  rewrite Nat.sub_0_r, Nat.max_0_l.
  destruct (Nat.le_ge_cases n (List.length s)) as [H | H].
  - now rewrite Nat.min_l.
  - rewrite Nat.min_r by assumption.
    now rewrite !firstn_all2.
Qed.

(** The white space [trim] strips is more than the ASCII blanks. *)
Example trim_unicode_sample :
  trim [160; 8232; 9; 65279; 12288]%N = [].
Proof. reflexivity. Qed.

(** The scenario of the page's description: prompt "a cat", no upload,
    enhanced prompt "X", three pictures. *)
Example scenario_calls :
  remote_calls
    (trace (snd (handleGeneration (answering "X" three_pictures)
                   (idle "a cat" None (Some [])))))
  = [CallGenerateContent
       {| content_model := lit "gemini-2.5-flash";
          contents := {| parts := [Text (lit "a cat")] |};
          content_config := {| systemInstruction := system_instruction |} |};
     CallGenerateImages
       {| images_model := lit "imagen-3.0-generate-002";
          prompt := lit "X";
          images_config :=
            {| numberOfImages := 3;
               aspectRatio := lit "1:1";
               outputMimeType := lit "image/jpeg" |} |}].
Proof. reflexivity. Qed.

Example scenario_gallery :
  imageGallery (snd (handleGeneration (answering "X" three_pictures)
                       (idle "a cat" None (Some []))))
  = Some [ImageElement (lit "data:image/jpeg;base64,AAAA") (lit "X... - Image 1");
          ImageElement (lit "data:image/jpeg;base64,BBBB") (lit "X... - Image 2");
          ImageElement (lit "data:image/jpeg;base64,CCCC") (lit "X... - Image 3")].
Proof. reflexivity. Qed.

(** ** World updates *)

Lemma log_log (e1 e2 : list Event) (w : World) :
  log e2 (log e1 w) = log (e1 ++ e2) w.
Proof. unfold log; cbn. now rewrite app_assoc. Qed.

Lemma remote_calls_app (t1 t2 : list Event) :
  remote_calls (t1 ++ t2) = remote_calls t1 ++ remote_calls t2.
Proof. apply filter_app. Qed.

(** ** The rendering loop *)

Lemma render_image_run (prompt : jsstring) (g : GeneratedImage) (index : nat)
    (children : list Node) (w : World) :
  imageGallery w = Some children ->
  render_image prompt g index w
  = (Normal tt, with_gallery (children ++ rendered prompt [g] index) w).
Proof.
  intros Hg. unfold render_image. cbn [rendered].
  destruct (image_imageBytes g) as [[ | c bytes] | ]; cbn [truthy].
  - unfold ret, with_gallery. rewrite !app_nil_r. destruct w; cbn in *. now subst.
  - unfold imageGallery_appendChild. rewrite Hg, substring_prefix, app_nil_r.
    replace (N.of_nat index + 1)%N with (N.of_nat (S index)) by lia.
    reflexivity.
  - unfold ret, with_gallery. rewrite !app_nil_r. destruct w; cbn in *. now subst.
Qed.

Lemma forEach_render_image (prompt : jsstring) (images : list GeneratedImage) :
  forall (index : nat) (children : list Node) (w : World),
    imageGallery w = Some children ->
    forEach (render_image prompt) images index w
    = (Normal tt, with_gallery (children ++ rendered prompt images index) w).
Proof.
  induction images as [ | g rest IH]; intros index children w Hg.
  - cbn. unfold ret, with_gallery. rewrite app_nil_r.
    destruct w; cbn in *. now subst.
  - cbn [forEach]. unfold bind.
    rewrite (render_image_run prompt g index children w Hg).
    rewrite (IH (S index) (children ++ rendered prompt [g] index)) by reflexivity.
    cbn [rendered]. rewrite app_nil_r, <- app_assoc. reflexivity.
Qed.

(** ** Symbolic runs of the handlers *)

Lemma show_message_run (html : jsstring) (w : World) :
  show_message html w = (Normal tt, shown html w).
Proof.
  unfold show_message, shown, bind, imageGallery_truthy, read,
    imageGallery_set_innerHTML, ret.
  destruct (imageGallery w) eqn:Hg; [rewrite Hg | ]; reflexivity.
Qed.

Section Runs.

Variable ai : Models.

Lemma enhancePrompt_run (textPrompt : jsstring) (imageBase64 : option jsstring)
    (w : World) :
  enhancePrompt ai textPrompt imageBase64 w
  = let request := enhancePrompt_request textPrompt imageBase64 in
    match generateContent ai request with
    | Fulfilled response =>
        (Normal (text response),
         log [CallGenerateContent request;
              ConsoleLog [ArgString (lit "Enhanced prompt by Gemini:");
                          ArgString (text response)]] w)
    | Rejected e => (Throw e, log [CallGenerateContent request] w)
    end.
Proof.
  unfold enhancePrompt, bind, emit, console_log, emit, await, ret, throw.
  cbv zeta.
  destruct (generateContent ai _); [rewrite log_log | ]; reflexivity.
Qed.

Lemma generateImages_run (prompt : jsstring) (w : World) :
  generateImages ai prompt w
  = let request := generateImages_request prompt in
    match GenAI.generateImages ai request with
    | Fulfilled response =>
        (Normal tt,
         log [ConsoleLog [ArgString (lit "Full Imagen response:");
                          ArgImagesResponse response]]
           (render_response prompt response (log [CallGenerateImages request] w)))
    | Rejected e => (Throw e, log [CallGenerateImages request] w)
    end.
Proof.
  unfold generateImages, render_response. cbv zeta.
  unfold bind at 1. unfold emit at 1.
  unfold bind at 1, await.
  destruct (GenAI.generateImages ai _) as [response | e]; [ | reflexivity].
  unfold ret at 1. unfold bind at 1, imageGallery_truthy, read.
  set (w1 := log _ w).
  destruct (imageGallery w1) as [children | ] eqn:Hg;
    [destruct (response_generatedImages response) as [images | ] | ];
    try reflexivity.
  unfold bind at 1.
  unfold bind at 1, imageGallery_set_innerHTML at 1. rewrite Hg.
  cbn [parse_innerHTML].
  destruct images as [ | g rest].
  - cbn. reflexivity.
  - cbn [List.length Nat.eqb]. unfold bind at 1, ret at 1.
    rewrite forEach_render_image with (children := []) by reflexivity.
    reflexivity.
Qed.

End Runs.

Section HandlerRuns.

Variable ai : Models.

Lemma guard_has_input (w : World) :
  negb (truthy (trim (promptInput_value w)))
  && negb (truthy_opt (uploadedImageBase64 w))
  = negb (has_input w).
Proof. unfold has_input. now rewrite negb_orb. Qed.

Lemma handleGeneration_without_input (w : World) :
  has_input w = false ->
  handleGeneration ai w = (Normal tt, log [Alert validation_alert] w).
Proof.
  intros H. unfold handleGeneration, bind, read.
  rewrite guard_has_input, H. reflexivity.
Qed.

Lemma handleGeneration_run (w : World) :
  has_input w = true ->
  handleGeneration ai w
  = (Normal tt,
     match generateContent ai
             (enhancePrompt_request (promptInput_value w) (uploadedImageBase64 w))
     with
     | Rejected e =>
         caught e
           (log [CallGenerateContent
                   (enhancePrompt_request (promptInput_value w)
                      (uploadedImageBase64 w))]
              (started w))
     | Fulfilled response =>
         match GenAI.generateImages ai (generateImages_request (text response))
         with
         | Rejected e =>
             caught e
               (log [CallGenerateImages (generateImages_request (text response))]
                  (enhanced response w))
         | Fulfilled images =>
             with_button false (lit "Generate Images")
               (log [ConsoleLog [ArgString (lit "Full Imagen response:");
                                 ArgImagesResponse images]]
                  (render_response (text response) images
                     (log [CallGenerateImages
                             (generateImages_request (text response))]
                        (enhanced response w))))
         end
     end).
Proof.
  intros H. unfold handleGeneration.
  unfold bind at 1, read at 1. unfold bind at 1, read at 1.
  rewrite guard_has_input, H. cbn [negb].
  unfold bind at 1, setLoadingState at 1, set_generateBtn at 1.
  unfold bind at 1. rewrite show_message_run.
  fold (started w).
  unfold try_catch_finally.
  unfold bind at 1, read at 1.
  unfold bind at 1. rewrite enhancePrompt_run. cbv zeta.
  replace (uploadedImageBase64 (started w)) with (uploadedImageBase64 w)
    by (unfold started, shown; destruct (imageGallery _); reflexivity).
  destruct (generateContent ai _) as [response | e].
  - unfold bind at 1, setLoadingState at 1, set_generateBtn at 1.
    unfold bind at 1. rewrite show_message_run.
    fold (enhanced response w).
    rewrite generateImages_run. cbv zeta.
    destruct (GenAI.generateImages ai _) as [images | e].
    + reflexivity.
    + unfold bind, console_error, emit. rewrite show_message_run. reflexivity.
  - unfold bind, console_error, emit. rewrite show_message_run. reflexivity.
Qed.

End HandlerRuns.

(** ** Fields of the worlds a run goes through *)

Section Fields.

Variables (events : list Event) (disabled : bool) (label html : jsstring)
          (children : list Node) (w : World).

Lemma trace_log : trace (log events w) = trace w ++ events.
Proof. reflexivity. Qed.
Lemma trace_with_button : trace (with_button disabled label w) = trace w.
Proof. reflexivity. Qed.
Lemma trace_with_gallery : trace (with_gallery children w) = trace w.
Proof. reflexivity. Qed.
Lemma trace_shown : trace (shown html w) = trace w.
Proof. unfold shown. now destruct (imageGallery w). Qed.

Lemma gallery_log : imageGallery (log events w) = imageGallery w.
Proof. reflexivity. Qed.
Lemma gallery_with_button :
  imageGallery (with_button disabled label w) = imageGallery w.
Proof. reflexivity. Qed.
Lemma gallery_shown :
  imageGallery (shown html w)
  = match imageGallery w with
    | Some _ => Some (parse_innerHTML html)
    | None => None
    end.
Proof. unfold shown. now destruct (imageGallery w) eqn:E. Qed.

Lemma disabled_log :
  generateBtn_disabled (log events w) = generateBtn_disabled w.
Proof. reflexivity. Qed.
Lemma disabled_with_button :
  generateBtn_disabled (with_button disabled label w) = disabled.
Proof. reflexivity. Qed.
Lemma label_with_button :
  generateBtn_textContent (with_button disabled label w) = label.
Proof. reflexivity. Qed.

Lemma uploaded_log :
  uploadedImageBase64 (log events w) = uploadedImageBase64 w.
Proof. reflexivity. Qed.
Lemma uploaded_with_button :
  uploadedImageBase64 (with_button disabled label w) = uploadedImageBase64 w.
Proof. reflexivity. Qed.
Lemma uploaded_shown :
  uploadedImageBase64 (shown html w) = uploadedImageBase64 w.
Proof. unfold shown. now destruct (imageGallery w). Qed.

Lemma prompt_log : promptInput_value (log events w) = promptInput_value w.
Proof. reflexivity. Qed.
Lemma prompt_with_button :
  promptInput_value (with_button disabled label w) = promptInput_value w.
Proof. reflexivity. Qed.
Lemma prompt_shown : promptInput_value (shown html w) = promptInput_value w.
Proof. unfold shown. now destruct (imageGallery w). Qed.

End Fields.

Lemma trace_render_response (prompt : jsstring)
    (response : option GenerateImagesResponse) (w : World) :
  trace (render_response prompt response w) = trace w.
Proof.
  unfold render_response.
  destruct (imageGallery w); [destruct (response_generatedImages response) | ];
    reflexivity.
Qed.

Lemma gallery_render_response (prompt : jsstring)
    (response : option GenerateImagesResponse) (w : World) :
  imageGallery (render_response prompt response w)
  = match imageGallery w, response_generatedImages response with
    | Some _, Some images =>
        Some ((match images with [] => [Markup no_images_html] | _ :: _ => [] end)
              ++ rendered prompt images 0)
    | old, _ => old
    end.
Proof.
  unfold render_response.
  destruct (imageGallery w) eqn:E;
    [destruct (response_generatedImages response) | ]; cbn; congruence.
Qed.

Create Rewrite HintDb world.

#[local] Hint Rewrite
  trace_log trace_with_button trace_with_gallery trace_shown
  trace_render_response
  gallery_log gallery_with_button gallery_shown gallery_render_response
  disabled_log disabled_with_button label_with_button
  uploaded_log uploaded_with_button uploaded_shown
  prompt_log prompt_with_button prompt_shown : world.

(** Unfold the stages of a run and read the fields off. *)
Ltac fields :=
  unfold caught, enhanced, started; autorewrite with world.

(** ** Reading a trace *)

Lemma content_requests_app (t1 t2 : list Event) :
  content_requests (t1 ++ t2) = content_requests t1 ++ content_requests t2.
Proof.
  induction t1 as [ | [ | | | | ] t1 IH]; cbn; now rewrite ?IH.
Qed.

Lemma image_requests_app (t1 t2 : list Event) :
  image_requests (t1 ++ t2) = image_requests t1 ++ image_requests t2.
Proof.
  induction t1 as [ | [ | | | | ] t1 IH]; cbn; now rewrite ?IH.
Qed.

#[local] Hint Rewrite content_requests_app image_requests_app remote_calls_app
  : world.

(** ** The orchestrator *)

Section Orchestrator.

Variable ai : Models.

(** C2: when the prompt is empty after trimming and no uploaded image is
    stored, [handleGeneration] returns normally after one alert with the
    validation message; it makes no remote call and leaves the stored
    image, the prompt, the button and the gallery as they were. *)
Theorem empty_input_only_alerts (w : World) :
  trim (promptInput_value w) = [] ->
  uploadedImageBase64 w = None ->
  let (completion, w') := handleGeneration ai w in
  completion = Normal tt
  /\ trace w'
     = trace w ++ [Alert (lit "Please enter a prompt or upload an image.")]
  /\ remote_calls (trace w') = remote_calls (trace w)
  /\ uploadedImageBase64 w' = uploadedImageBase64 w
  /\ promptInput_value w' = promptInput_value w
  /\ generateBtn_disabled w' = generateBtn_disabled w
  /\ generateBtn_textContent w' = generateBtn_textContent w
  /\ imageGallery w' = imageGallery w.
Proof.
  intros Hprompt Himage.
  rewrite handleGeneration_without_input
    by (unfold has_input; now rewrite Hprompt, Himage).
  repeat split.
  autorewrite with world. cbn. apply app_nil_r.
Qed.

(** C1: in a run where both remote calls succeed, the image endpoint is
    called once, and the prompt of that call is the string the
    enhancement returned; when that string differs from the text of the
    prompt field, the call was not made with the text of the prompt
    field. *)
Theorem image_client_gets_enhanced_prompt (w : World)
    (response : GenerateContentResponse)
    (images : option GenerateImagesResponse) :
  has_input w = true ->
  generateContent ai
    (enhancePrompt_request (promptInput_value w) (uploadedImageBase64 w))
  = Fulfilled response ->
  GenAI.generateImages ai (generateImages_request (text response))
  = Fulfilled images ->
  let w' := snd (handleGeneration ai w) in
  map prompt (image_requests (trace w'))
  = map prompt (image_requests (trace w)) ++ [text response]
  /\ (text response <> promptInput_value w ->
      map prompt (image_requests (trace w'))
      <> map prompt (image_requests (trace w)) ++ [promptInput_value w]).
Proof.
  intros Hin Hc Hi. cbv zeta.
  rewrite handleGeneration_run by assumption. rewrite Hc, Hi. cbn [snd].
  fields. cbn. rewrite !app_nil_r, map_app. cbn.
  split; [reflexivity | ].
  intros Hne Heq. apply app_inv_head in Heq. congruence.
Qed.

(** C3: a run that passed the input check always ends with the button
    enabled and labelled again; when one of the two remote calls rejects,
    the run still completes normally and the gallery, where the page has
    one, holds the generic error message and nothing else. *)
Theorem remote_failure_shows_one_error (w : World) :
  has_input w = true ->
  let request :=
    enhancePrompt_request (promptInput_value w) (uploadedImageBase64 w) in
  let (completion, w') := handleGeneration ai w in
  generateBtn_disabled w' = false
  /\ generateBtn_textContent w' = lit "Generate Images"
  /\ ((exists e, generateContent ai request = Rejected e)
      \/ (exists response e,
            generateContent ai request = Fulfilled response
            /\ GenAI.generateImages ai (generateImages_request (text response))
               = Rejected e) ->
      completion = Normal tt
      /\ imageGallery w'
         = match imageGallery w with
           | Some _ =>
               Some [Markup (p_message
                 "Error: Could not generate images. Check the console for details.")]
           | None => None
           end).
Proof.
  intros Hin. cbv zeta. rewrite handleGeneration_run by assumption.
  split; [ | split].
  - destruct (generateContent ai _) as [response | e];
      [destruct (GenAI.generateImages ai _) | ]; reflexivity.
  - destruct (generateContent ai _) as [response | e];
      [destruct (GenAI.generateImages ai _) | ]; reflexivity.
  - intros [[e He] | (response & e & Hc & Hi)]; (split; [reflexivity | ]).
    + rewrite He. fields. now destruct (imageGallery w).
    + rewrite Hc, Hi. fields. now destruct (imageGallery w).
Qed.

(** C4: when both calls succeed and the image endpoint answers with an
    empty list, the run completes normally without entering the [catch]
    block (its trace is the two calls and the two console logs of the
    normal path), and the gallery, where the page has one, holds the
    "no images" message and no image element. *)
Theorem zero_results_show_no_images_message (w : World)
    (response : GenerateContentResponse) :
  has_input w = true ->
  let request :=
    enhancePrompt_request (promptInput_value w) (uploadedImageBase64 w) in
  let answer := Some {| generatedImages := Some [] |} in
  generateContent ai request = Fulfilled response ->
  GenAI.generateImages ai (generateImages_request (text response))
  = Fulfilled answer ->
  let (completion, w') := handleGeneration ai w in
  completion = Normal tt
  /\ imageGallery w'
     = match imageGallery w with
       | Some _ =>
           Some [Markup (p_message
             "No images were generated. This could be due to the safety policy. Try a different prompt.")]
       | None => None
       end
  /\ (forall children, imageGallery w' = Some children ->
      filter is_image_element children = [])
  /\ trace w'
     = trace w
       ++ [CallGenerateContent request;
           ConsoleLog [ArgString (lit "Enhanced prompt by Gemini:");
                       ArgString (text response)];
           CallGenerateImages (generateImages_request (text response));
           ConsoleLog [ArgString (lit "Full Imagen response:");
                       ArgImagesResponse answer]].
Proof.
  intros Hin request answer Hc Hi.
  rewrite handleGeneration_run by assumption.
  fold request. rewrite Hc, Hi.
  split; [reflexivity | ]. fields.
  split; [ | split].
  - now destruct (imageGallery w).
  - destruct (imageGallery w); cbn; intros children [= <-]; reflexivity.
  - now rewrite <- !app_assoc.
Qed.

(** C5: when the enhancement call rejects, the run makes no call to the
    image endpoint; and whatever the endpoints answer, a run calls each
    of them at most once. *)
Theorem single_attempt (w : World) :
  let w' := snd (handleGeneration ai w) in
  (has_input w = true ->
   (exists e,
      generateContent ai
        (enhancePrompt_request (promptInput_value w) (uploadedImageBase64 w))
      = Rejected e) ->
   image_requests (trace w') = image_requests (trace w)
   /\ List.length (content_requests (trace w'))
      = List.length (content_requests (trace w)) + 1)
  /\ List.length (content_requests (trace w'))
     <= List.length (content_requests (trace w)) + 1
  /\ List.length (image_requests (trace w'))
     <= List.length (image_requests (trace w)) + 1.
Proof.
  cbv zeta. split.
  - intros Hin [e He]. rewrite handleGeneration_run by assumption.
    rewrite He. cbn [snd]. fields. cbn. rewrite !app_nil_r.
    split; [reflexivity | ]. rewrite length_app. reflexivity.
  - destruct (has_input w) eqn:Hin.
    + rewrite handleGeneration_run by assumption. cbn [snd].
      destruct (generateContent ai _) as [response | e];
        [destruct (GenAI.generateImages ai _) | ];
        fields; cbn; rewrite ?app_nil_r, ?length_app; cbn; lia.
    + rewrite handleGeneration_without_input by assumption. cbn [snd].
      fields. cbn. rewrite !app_nil_r. lia.
Qed.

(** C9: when the image endpoint resolves with a response that has no
    [generatedImages] (or with no response object), [generateImages]
    returns normally and leaves the gallery as it found it; in a run of
    [handleGeneration] the gallery therefore still holds the second
    status message, with no image and no "no images" message. *)
Theorem absent_generatedImages_keeps_status (w : World) (prompt : jsstring)
    (answer : option GenerateImagesResponse) :
  response_generatedImages answer = None ->
  (GenAI.generateImages ai (generateImages_request prompt) = Fulfilled answer ->
   fst (generateImages ai prompt w) = Normal tt
   /\ imageGallery (snd (generateImages ai prompt w)) = imageGallery w)
  /\ (forall response,
        has_input w = true ->
        generateContent ai
          (enhancePrompt_request (promptInput_value w) (uploadedImageBase64 w))
        = Fulfilled response ->
        GenAI.generateImages ai (generateImages_request (text response))
        = Fulfilled answer ->
        fst (handleGeneration ai w) = Normal tt
        /\ imageGallery (snd (handleGeneration ai w))
           = match imageGallery w with
             | Some _ =>
                 Some [Markup (p_message
                   "Idea analyzed! Now generating images...")]
             | None => None
             end).
Proof.
  intros Habsent. split.
  - intros Hi. rewrite generateImages_run. cbv zeta. rewrite Hi.
    split; [reflexivity | ]. cbn [snd]. autorewrite with world.
    rewrite Habsent. now destruct (imageGallery w).
  - intros response Hin Hc Hi. rewrite handleGeneration_run by assumption.
    rewrite Hc, Hi. split; [reflexivity | ]. cbn [snd]. fields.
    rewrite Habsent. now destruct (imageGallery w).
Qed.

(** C10: the run sends the value of the prompt field as it is, not
    trimmed, to [enhancePrompt]; the request has that value as its one
    text part when the value is not the empty string and has no text part
    otherwise; so a prompt of white space only, sent along with an
    uploaded image, gives the image part followed by a text part of that
    white space. *)
Theorem text_part_is_raw_prompt (w : World) :
  has_input w = true ->
  let value := promptInput_value w in
  let request := enhancePrompt_request value (uploadedImageBase64 w) in
  content_requests (trace (snd (handleGeneration ai w)))
  = content_requests (trace w) ++ [request]
  /\ text_parts (parts (contents request))
     = match value with [] => [] | _ :: _ => [value] end
  /\ (forall data,
        uploadedImageBase64 w = Some data -> data <> [] ->
        value <> [] -> trim value = [] ->
        parts (contents request)
        = [InlineData (lit "image/jpeg") data; Text value]).
Proof.
  intros Hin value request. split; [ | split].
  - rewrite handleGeneration_run by assumption. cbn [snd]. fold value request.
    destruct (generateContent ai request) as [response | e];
      [destruct (GenAI.generateImages ai _) | ];
      fields; cbn; now rewrite ?app_nil_r.
  - unfold request, enhancePrompt_request. cbv zeta.
    destruct (uploadedImageBase64 w) as [[ | c data] | ];
      destruct value; reflexivity.
  - intros data Hup Hdata Hvalue _. unfold request. rewrite Hup.
    destruct data; [contradiction | ]. destruct value; [contradiction | ].
    reflexivity.
Qed.

End Orchestrator.

(** ** The two clients *)

Section Clients.

Variable ai : Models.

(** C6: [enhancePrompt] calls the text endpoint once, with a request whose
    parts are: the image, tagged image/jpeg, and then the text, when both
    are there; the image alone when the text is empty; the text alone
    when no image is passed; nothing when neither is there. *)
Theorem enhancePrompt_parts_order (textPrompt : jsstring)
    (imageBase64 : option jsstring) (w : World) :
  let request := enhancePrompt_request textPrompt imageBase64 in
  let given := parts (contents request) in
  remote_calls (trace (snd (enhancePrompt ai textPrompt imageBase64 w)))
  = remote_calls (trace w) ++ [CallGenerateContent request]
  /\ (forall data, imageBase64 = Some data -> data <> [] ->
      textPrompt <> [] ->
      given = [InlineData (lit "image/jpeg") data; Text textPrompt])
  /\ (forall data, imageBase64 = Some data -> data <> [] ->
      textPrompt = [] ->
      given = [InlineData (lit "image/jpeg") data])
  /\ (imageBase64 = None -> textPrompt <> [] -> given = [Text textPrompt])
  /\ (imageBase64 = None -> textPrompt = [] -> given = []).
Proof.
  cbv zeta. split.
  - rewrite enhancePrompt_run. cbv zeta.
    destruct (generateContent ai _); cbn [snd]; autorewrite with world;
      cbn; now rewrite ?app_nil_r.
  - unfold enhancePrompt_request; cbn [parts contents].
    repeat split.
    + intros [ | c data] -> Hd Ht; [contradiction | ].
      destruct textPrompt; [contradiction | reflexivity].
    + intros [ | c data] -> Hd ->; [contradiction | reflexivity].
    + intros -> Ht. destruct textPrompt; [contradiction | reflexivity].
    + intros -> ->. reflexivity.
Qed.

(** An uploaded string that is empty is falsy, and is treated as no image:
    by the input check and by [enhancePrompt] alike. *)
Remark empty_upload_counts_as_none (textPrompt : jsstring) (w : World) :
  parts (contents (enhancePrompt_request textPrompt (Some [])))
  = parts (contents (enhancePrompt_request textPrompt None))
  /\ (uploadedImageBase64 w = Some [] ->
      has_input w = truthy (trim (promptInput_value w))).
Proof.
  split; [reflexivity | ].
  intros H. unfold has_input. rewrite H. apply orb_false_r.
Qed.

(** C7: whatever the prompt, [generateImages] calls the image endpoint
    once, asking for 3 images of aspect ratio 1:1 as image/jpeg for that
    prompt. *)
Theorem generateImages_asks_three_square_jpegs (prompt : jsstring)
    (w : World) :
  image_requests (trace (snd (generateImages ai prompt w)))
  = image_requests (trace w)
    ++ [{| images_model := lit "imagen-3.0-generate-002";
           GenAI.prompt := prompt;
           images_config :=
             {| numberOfImages := 3;
                aspectRatio := lit "1:1";
                outputMimeType := lit "image/jpeg" |} |}].
Proof.
  rewrite generateImages_run. cbv zeta.
  destruct (GenAI.generateImages ai _); cbn [snd]; autorewrite with world;
    cbn; now rewrite ?app_nil_r.
Qed.

End Clients.

(** ** Alt texts of the rendered images *)

Lemma alt_texts_app (c1 c2 : list Node) :
  alt_texts (c1 ++ c2) = alt_texts c1 ++ alt_texts c2.
Proof.
  induction c1 as [ | [html | src alt] c1 IH]; cbn; now rewrite ?IH.
Qed.

Lemma alt_texts_rendered (prompt : jsstring) (images : list GeneratedImage) :
  forallb has_bytes images = true ->
  forall index,
    alt_texts (rendered prompt images index)
    = map (fun k => firstn 50 prompt ++ lit "... - Image "
                    ++ Number_toString (N.of_nat k + 1))
        (seq index (List.length images)).
Proof.
  induction images as [ | g rest IH]; intros Hall index; [reflexivity | ].
  cbn [forallb] in Hall. apply andb_true_iff in Hall as [Hg Hrest].
  cbn [rendered List.length seq map]. rewrite alt_texts_app, IH by assumption.
  unfold has_bytes in Hg.
  destruct (image_imageBytes g) as [[ | c bytes] | ]; try discriminate.
  cbn [alt_texts app]. do 3 f_equal. f_equal. lia.
Qed.

Section AltText.

Variable ai : Models.

(** C8, as the code has it: when both calls succeed and every returned
    image has bytes, the alt texts of the rendered images are, in order,
    the first 50 code units of the ENHANCED prompt (the string passed to
    [generateImages]), then "... - Image " and the 1-based position.  In
    the scenario (enhanced prompt "X", three images) they are
    "X... - Image 1", "X... - Image 2" and "X... - Image 3", whatever
    the user typed. *)
Theorem alt_text_is_from_enhanced_prompt (w : World)
    (response : GenerateContentResponse) (images : list GeneratedImage)
    (children : list Node) :
  has_input w = true ->
  imageGallery w = Some children ->
  generateContent ai
    (enhancePrompt_request (promptInput_value w) (uploadedImageBase64 w))
  = Fulfilled response ->
  GenAI.generateImages ai (generateImages_request (text response))
  = Fulfilled (Some {| generatedImages := Some images |}) ->
  forallb has_bytes images = true ->
  let alts := alt_texts (gallery_children (snd (handleGeneration ai w))) in
  alts
  = map (fun k => firstn 50 (text response) ++ lit "... - Image "
                  ++ Number_toString (N.of_nat k + 1))
      (seq 0 (List.length images))
  /\ (text response = lit "X" -> List.length images = 3 ->
      alts = [lit "X... - Image 1"; lit "X... - Image 2";
              lit "X... - Image 3"]).
Proof.
  intros Hin Hg Hc Hi Hall alts.
  assert (Halts : alts
                  = map (fun k => firstn 50 (text response)
                                  ++ lit "... - Image "
                                  ++ Number_toString (N.of_nat k + 1))
                      (seq 0 (List.length images))).
  { unfold alts, gallery_children.
    rewrite handleGeneration_run by assumption. rewrite Hc, Hi. cbn [snd].
    fields. rewrite Hg. cbn [response_generatedImages generatedImages].
    rewrite alt_texts_app, alt_texts_rendered by assumption.
    now destruct images. }
  split; [exact Halts | ].
  intros HX Hlen. rewrite Halts, HX, Hlen. reflexivity.
Qed.

End AltText.

(** C8, as the claim words it, fails: in the scenario (prompt "a cat", no
    uploaded image, enhanced prompt "X", three images) the alt texts are not
    the ones built from "a cat". *)
Lemma alt_text_is_not_from_user_prompt :
  let w := idle "a cat" None (Some []) in
  let w' := snd (handleGeneration (answering "X" three_pictures) w) in
  List.length (filter is_image_element (gallery_children w')) = 3
  /\ alt_texts (gallery_children w')
     <> [lit "a cat... - Image 1"; lit "a cat... - Image 2";
         lit "a cat... - Image 3"].
Proof. split; [reflexivity | vm_compute; discriminate]. Qed.

(** ** The theorems at sample inputs *)

Lemma empty_input_only_alerts_witness :
  let w := idle "   " None (Some []) in
  trim (promptInput_value w) = []
  /\ uploadedImageBase64 w = None
  /\ trace (snd (handleGeneration failing_images w))
     = [Alert (lit "Please enter a prompt or upload an image.")].
Proof.
  cbv zeta. split; [reflexivity | split; [reflexivity | ] ].
  pose proof (empty_input_only_alerts failing_images (idle "   " None (Some []))
                eq_refl eq_refl) as H.
  destruct (handleGeneration failing_images (idle "   " None (Some [])))
    as [completion w'].
  exact (proj1 (proj2 H)).
Defined.

Lemma image_client_gets_enhanced_prompt_witness :
  let ai := answering "X" three_pictures in
  let w := idle "a cat" None (Some []) in
  has_input w = true
  /\ generateContent ai
       (enhancePrompt_request (promptInput_value w) (uploadedImageBase64 w))
     = Fulfilled {| text := lit "X" |}
  /\ GenAI.generateImages ai (generateImages_request (lit "X"))
     = Fulfilled three_pictures
  /\ map prompt (image_requests (trace (snd (handleGeneration ai w))))
     = [lit "X"].
Proof.
  cbv zeta. repeat (split; [reflexivity | ]).
  exact (proj1 (image_client_gets_enhanced_prompt
                  (answering "X" three_pictures) (idle "a cat" None (Some []))
                  {| text := lit "X" |} three_pictures
                  eq_refl eq_refl eq_refl)).
Defined.

Lemma remote_failure_shows_one_error_witness :
  let w := idle "a cat" None (Some []) in
  has_input w = true
  /\ generateContent failing_enhancement
       (enhancePrompt_request (promptInput_value w) (uploadedImageBase64 w))
     = Rejected (ServiceError (lit "503"))
  /\ generateBtn_disabled (snd (handleGeneration failing_enhancement w)) = false
  /\ imageGallery (snd (handleGeneration failing_enhancement w))
     = Some [Markup error_html].
Proof.
  cbv zeta. repeat (split; [reflexivity | ]).
  pose proof (remote_failure_shows_one_error failing_enhancement
                (idle "a cat" None (Some [])) eq_refl) as H.
  cbv zeta in H.
  destruct (handleGeneration failing_enhancement (idle "a cat" None (Some [])))
    as [completion w'].
  destruct H as (_ & _ & Hfail). cbn [snd].
  exact (proj2 (Hfail (or_introl (ex_intro _ _ eq_refl)))).
Defined.

Lemma zero_results_show_no_images_message_witness :
  let ai := answering "X" (Some {| generatedImages := Some [] |}) in
  let w := idle "a cat" None (Some []) in
  has_input w = true
  /\ GenAI.generateImages ai (generateImages_request (lit "X"))
     = Fulfilled (Some {| generatedImages := Some [] |})
  /\ imageGallery (snd (handleGeneration ai w)) = Some [Markup no_images_html].
Proof.
  cbv zeta. repeat (split; [reflexivity | ]).
  pose proof (zero_results_show_no_images_message
                (answering "X" (Some {| generatedImages := Some [] |}))
                (idle "a cat" None (Some [])) {| text := lit "X" |}
                eq_refl eq_refl eq_refl) as H.
  destruct (handleGeneration _ _) as [completion w'].
  exact (proj1 (proj2 H)).
Defined.

Lemma single_attempt_witness :
  let w := idle "a cat" None (Some []) in
  has_input w = true
  /\ generateContent failing_enhancement
       (enhancePrompt_request (promptInput_value w) (uploadedImageBase64 w))
     = Rejected (ServiceError (lit "503"))
  /\ image_requests (trace (snd (handleGeneration failing_enhancement w))) = [].
Proof.
  cbv zeta. repeat (split; [reflexivity | ]).
  refine (proj1 (proj1 (single_attempt failing_enhancement
                          (idle "a cat" None (Some [])))
                   eq_refl _)).
  eexists. reflexivity.
Defined.

Lemma absent_generatedImages_keeps_status_witness :
  let answer := Some {| generatedImages := None |} in
  let ai := answering "X" answer in
  let w := idle "a cat" None (Some []) in
  response_generatedImages answer = None
  /\ has_input w = true
  /\ imageGallery (snd (handleGeneration ai w)) = Some [Markup analyzed_html].
Proof.
  cbv zeta. repeat (split; [reflexivity | ]).
  exact (proj2 (proj2 (absent_generatedImages_keeps_status
                         (answering "X" (Some {| generatedImages := None |}))
                         (idle "a cat" None (Some [])) (lit "X")
                         (Some {| generatedImages := None |}) eq_refl)
                  {| text := lit "X" |} eq_refl eq_refl eq_refl)).
Defined.

Lemma text_part_is_raw_prompt_witness :
  let w := idle "  " (Some (lit "QUJD")) (Some []) in
  has_input w = true
  /\ trim (promptInput_value w) = []
  /\ parts (contents (enhancePrompt_request (promptInput_value w)
                        (uploadedImageBase64 w)))
     = [InlineData (lit "image/jpeg") (lit "QUJD"); Text (lit "  ")].
Proof.
  cbv zeta. repeat (split; [reflexivity | ]).
  refine (proj2 (proj2 (text_part_is_raw_prompt failing_images
                          (idle "  " (Some (lit "QUJD")) (Some [])) eq_refl))
            (lit "QUJD") eq_refl _ _ eq_refl); discriminate.
Defined.

Lemma enhancePrompt_parts_order_witness :
  parts (contents (enhancePrompt_request (lit "a cat") (Some (lit "QUJD"))))
  = [InlineData (lit "image/jpeg") (lit "QUJD"); Text (lit "a cat")]
  /\ parts (contents (enhancePrompt_request (lit "a cat") None))
     = [Text (lit "a cat")].
Proof.
  split.
  - refine (proj1 (proj2 (enhancePrompt_parts_order failing_images
                            (lit "a cat") (Some (lit "QUJD"))
                            (idle "a cat" None None)))
              (lit "QUJD") eq_refl _ _); discriminate.
  - refine (proj1 (proj2 (proj2 (proj2 (enhancePrompt_parts_order failing_images
                            (lit "a cat") None (idle "a cat" None None)))))
              eq_refl _); discriminate.
Defined.

Lemma alt_text_is_from_enhanced_prompt_witness :
  let ai := answering "X" three_pictures in
  let w := idle "a cat" None (Some []) in
  has_input w = true
  /\ imageGallery w = Some []
  /\ alt_texts (gallery_children (snd (handleGeneration ai w)))
     = [lit "X... - Image 1"; lit "X... - Image 2"; lit "X... - Image 3"].
Proof.
  cbv zeta. repeat (split; [reflexivity | ]).
  exact (proj2 (alt_text_is_from_enhanced_prompt
                  (answering "X" three_pictures) (idle "a cat" None (Some []))
                  {| text := lit "X" |}
                  [picture "AAAA"; picture "BBBB"; picture "CCCC"] []
                  eq_refl eq_refl eq_refl eq_refl eq_refl)
           eq_refl eq_refl).
Defined.

(** * Further properties *)

(** ** White space and the input check *)

Lemma trimStart_empty (s : jsstring) :
  trimStart s = [] <-> forallb is_white_space s = true.
Proof.
  induction s as [ | c s IH]; cbn; [tauto | ].
  destruct (is_white_space c); cbn; [exact IH | split; discriminate].
Qed.

Lemma trimStart_all_white (s : jsstring) :
  forallb is_white_space (trimStart s) = true -> trimStart s = [].
Proof.
  induction s as [ | c s IH]; cbn; [reflexivity | ].
  destruct (is_white_space c) eqn:Hc; [exact IH | ].
  cbn. rewrite Hc. discriminate.
Qed.

Lemma forallb_rev {A} (f : A -> bool) (l : list A) :
  forallb f (rev l) = forallb f l.
Proof.
  induction l as [ | a l IH]; [reflexivity | ].
  cbn. rewrite forallb_app, IH. cbn. rewrite andb_true_r. apply andb_comm.
Qed.

Lemma trim_empty (s : jsstring) :
  trim s = [] <-> forallb is_white_space s = true.
Proof.
  unfold trim, trimEnd. split.
  - intros H. apply (f_equal (@rev _)) in H. rewrite rev_involutive in H.
    cbn in H. apply trimStart_empty in H. rewrite forallb_rev in H.
    apply trimStart_all_white in H. now apply trimStart_empty.
  - intros H. apply trimStart_empty in H. rewrite H. reflexivity.
Qed.

Lemma has_input_false (w : World) :
  has_input w = false
  <-> forallb is_white_space (promptInput_value w) = true
      /\ truthy_opt (uploadedImageBase64 w) = false.
Proof.
  unfold has_input. rewrite orb_false_iff, <- trim_empty.
  destruct (trim (promptInput_value w)); cbn; intuition congruence.
Qed.

Section InputCheck.

Variable ai : Models.

(** The run ends after the validation alert alone exactly when the prompt
    holds nothing but white space (of any of the kinds [trim] strips) and
    the stored upload is null or the empty string; in every other case its
    first event is the call of the text endpoint. *)
Theorem alert_exactly_for_blank_input (w : World) :
  let w' := snd (handleGeneration ai w) in
  (forallb is_white_space (promptInput_value w) = true
   /\ truthy_opt (uploadedImageBase64 w) = false
   <-> trace w' = trace w ++ [Alert validation_alert])
  /\ (has_input w = true ->
      exists rest,
        trace w'
        = trace w
          ++ CallGenerateContent
               (enhancePrompt_request (promptInput_value w)
                  (uploadedImageBase64 w)) :: rest).
Proof.
  cbv zeta.
  assert (Hrun : has_input w = true ->
                 exists rest,
                   trace (snd (handleGeneration ai w))
                   = trace w
                     ++ CallGenerateContent
                          (enhancePrompt_request (promptInput_value w)
                             (uploadedImageBase64 w)) :: rest).
  { intros Hin. rewrite handleGeneration_run by assumption. cbn [snd].
    destruct (generateContent ai _) as [response | e];
      [destruct (GenAI.generateImages ai _) | ];
      fields; rewrite <- ?app_assoc; cbn [app]; eexists; reflexivity. }
  split; [ | exact Hrun].
  rewrite <- has_input_false. split.
  - intros Hin. now rewrite handleGeneration_without_input.
  - intros Ht. destruct (has_input w) eqn:Hin; [ | reflexivity].
    destruct (Hrun eq_refl) as [rest Hrest]. rewrite Hrest in Ht.
    apply app_inv_head in Ht. discriminate.
Qed.

End InputCheck.

(** ** What a run keeps *)

Lemma uploaded_render_response (prompt : jsstring)
    (response : option GenerateImagesResponse) (w : World) :
  uploadedImageBase64 (render_response prompt response w)
  = uploadedImageBase64 w.
Proof.
  unfold render_response.
  destruct (imageGallery w); [destruct (response_generatedImages response) | ];
    reflexivity.
Qed.

Lemma prompt_render_response (prompt : jsstring)
    (response : option GenerateImagesResponse) (w : World) :
  promptInput_value (render_response prompt response w) = promptInput_value w.
Proof.
  unfold render_response.
  destruct (imageGallery w); [destruct (response_generatedImages response) | ];
    reflexivity.
Qed.

#[local] Hint Rewrite uploaded_render_response prompt_render_response : world.


Section Frame.

Variable ai : Models.

(** No exception leaves [handleGeneration], whatever the endpoints answer
    and whether or not the page has a gallery; the run leaves the stored
    upload and the prompt field as they were, only adds to the trace, and
    a page without gallery stays without one. *)
Theorem handleGeneration_contains_every_failure (w : World) :
  let (completion, w') := handleGeneration ai w in
  completion = Normal tt
  /\ uploadedImageBase64 w' = uploadedImageBase64 w
  /\ promptInput_value w' = promptInput_value w
  /\ (exists events, trace w' = trace w ++ events)
  /\ (imageGallery w = None <-> imageGallery w' = None).
Proof.
  destruct (has_input w) eqn:Hin.
  - rewrite handleGeneration_run by assumption.
    destruct (generateContent ai _) as [response | e];
      [destruct (GenAI.generateImages ai _) as [answer | e] | ];
      fields; rewrite <- ?app_assoc;
      (repeat split; try reflexivity; [eexists; reflexivity | | ]);
      destruct (imageGallery w); try destruct (response_generatedImages answer);
      cbn; congruence.
  - rewrite handleGeneration_without_input by assumption.
    repeat split; try reflexivity; try (cbn; congruence).
    eexists; reflexivity.
Qed.


(** A rejection is reported to the console once, with the reason the
    endpoint gave, after the calls made so far; nothing else is logged as
    an error. *)
Theorem rejection_reason_is_logged (w : World) :
  has_input w = true ->
  let request :=
    enhancePrompt_request (promptInput_value w) (uploadedImageBase64 w) in
  let w' := snd (handleGeneration ai w) in
  (forall e,
     generateContent ai request = Rejected e ->
     trace w'
     = trace w
       ++ [CallGenerateContent request;
           ConsoleError [ArgString (lit "Error during generation process:");
                         ArgError e]])
  /\ (forall response e,
        generateContent ai request = Fulfilled response ->
        GenAI.generateImages ai (generateImages_request (text response))
        = Rejected e ->
        trace w'
        = trace w
          ++ [CallGenerateContent request;
              ConsoleLog [ArgString (lit "Enhanced prompt by Gemini:");
                          ArgString (text response)];
              CallGenerateImages (generateImages_request (text response));
              ConsoleError [ArgString (lit "Error during generation process:");
                            ArgError e]]).
Proof.
  intros Hin request w'. unfold w'.
  rewrite handleGeneration_run by assumption. fold request. split.
  - intros e He. rewrite He. cbn [snd]. fields. now rewrite <- !app_assoc.
  - intros response e Hc Hi. rewrite Hc, Hi. cbn [snd]. fields.
    now rewrite <- !app_assoc.
Qed.

(** Every request a run sends to the image endpoint is for the text of a
    fulfilled enhancement of that run: without one, no image is asked
    for. *)
Theorem image_request_needs_enhancement (w : World)
    (q : GenerateImagesParameters) :
  In q (image_requests (trace (snd (handleGeneration ai w)))) ->
  In q (image_requests (trace w))
  \/ exists response,
       has_input w = true
       /\ generateContent ai
            (enhancePrompt_request (promptInput_value w)
               (uploadedImageBase64 w))
          = Fulfilled response
       /\ q = generateImages_request (text response).
Proof.
  destruct (has_input w) eqn:Hin.
  - rewrite handleGeneration_run by assumption. cbn [snd].
    destruct (generateContent ai _) as [response | e] eqn:Hc;
      [destruct (GenAI.generateImages ai _) as [answer | e] | ];
      fields; cbn; rewrite ?app_nil_r; intros Hq;
      try apply in_app_or in Hq; try tauto.
    + destruct Hq as [Hq | [<- | [ ] ] ]; [tauto | right; eauto].
    + destruct Hq as [Hq | [<- | [ ] ] ]; [tauto | right; eauto].
  - rewrite handleGeneration_without_input by assumption. cbn [snd].
    fields. cbn. rewrite app_nil_r. tauto.
Qed.

End Frame.

(** ** Rendering a response *)

Lemma rendered_entries (prompt : jsstring) (images : list GeneratedImage) :
  forall index,
    rendered prompt images index
    = map (fun kg =>
             ImageElement (lit "data:image/jpeg;base64," ++ bytes_of (snd kg))
               (alt_at prompt (fst kg)))
        (filter (fun kg => has_bytes (snd kg))
           (combine (seq index (List.length images)) images)).
Proof.
  induction images as [ | g rest IH]; intros index; [reflexivity | ].
  cbn [rendered List.length seq combine filter snd]. rewrite IH.
  change (has_bytes g) with (truthy_opt (image_imageBytes g)).
  destruct (image_imageBytes g) as [[ | c bytes] | ] eqn:Hg;
    cbn [truthy_opt truthy]; try reflexivity.
  cbn [map fst snd app]. unfold bytes_of, alt_at. rewrite Hg.
  replace (N.of_nat index + 1)%N with (N.of_nat (S index)) by lia.
  reflexivity.
Qed.

Lemma rendered_nothing (prompt : jsstring) (images : list GeneratedImage) :
  forallb (fun g => negb (has_bytes g)) images = true ->
  forall index, rendered prompt images index = [].
Proof.
  induction images as [ | g rest IH]; intros Hall index; [reflexivity | ].
  cbn [forallb] in Hall. apply andb_true_iff in Hall as [Hg Hrest].
  cbn [rendered]. rewrite IH by assumption. unfold has_bytes in Hg.
  now destruct (image_imageBytes g) as [[ | c bytes] | ].
Qed.

Section Rendering.

Variable ai : Models.

(** For a response with at least one entry, on a page with a gallery,
    [generateImages] replaces the gallery by one image element per entry
    that has bytes, in the order of the response: its [src] is the JPEG
    data URL of the bytes and its alt text carries the position of the
    entry in the response, so entries without bytes leave gaps in the
    numbering. *)
Theorem generateImages_renders_entries_with_bytes (prompt : jsstring)
    (w : World) (before : list Node) (images : list GeneratedImage) :
  imageGallery w = Some before ->
  images <> [] ->
  GenAI.generateImages ai (generateImages_request prompt)
  = Fulfilled (Some {| generatedImages := Some images |}) ->
  imageGallery (snd (generateImages ai prompt w))
  = Some (map (fun kg =>
                 ImageElement
                   (lit "data:image/jpeg;base64," ++ bytes_of (snd kg))
                   (firstn 50 prompt ++ lit "... - Image "
                    ++ Number_toString (N.of_nat (fst kg) + 1)))
            (entries_with_bytes images)).
Proof.
  intros Hg Hne Hi. rewrite generateImages_run. cbv zeta. rewrite Hi.
  cbn [snd]. autorewrite with world. rewrite Hg.
  cbn [response_generatedImages generatedImages].
  destruct images as [ | g rest]; [contradiction | ].
  cbn [app]. now rewrite rendered_entries.
Qed.

(** When the response has entries but none of them has bytes, the gallery
    ends empty: neither an image nor the "no images" message, which is kept
    for a response of length zero. *)
Theorem entries_without_bytes_leave_gallery_empty (prompt : jsstring)
    (w : World) (before : list Node) (images : list GeneratedImage) :
  imageGallery w = Some before ->
  images <> [] ->
  forallb (fun g => negb (has_bytes g)) images = true ->
  GenAI.generateImages ai (generateImages_request prompt)
  = Fulfilled (Some {| generatedImages := Some images |}) ->
  fst (generateImages ai prompt w) = Normal tt
  /\ imageGallery (snd (generateImages ai prompt w)) = Some [].
Proof.
  intros Hg Hne Hall Hi. rewrite generateImages_run. cbv zeta. rewrite Hi.
  split; [reflexivity | ]. cbn [snd]. autorewrite with world. rewrite Hg.
  cbn [response_generatedImages generatedImages].
  rewrite rendered_nothing by assumption.
  destruct images as [ | g rest]; [contradiction | reflexivity].
Qed.

(** Both clients pass a rejection on to their caller with the reason
    unchanged and the gallery untouched, and complete normally whenever
    their endpoint fulfils: whatever the response holds, and whether or not
    the page has a gallery, rendering raises nothing. *)
Theorem clients_propagate_rejections (textPrompt prompt : jsstring)
    (imageBase64 : option jsstring) (w : World) :
  fst (enhancePrompt ai textPrompt imageBase64 w)
  = match generateContent ai (enhancePrompt_request textPrompt imageBase64) with
    | Fulfilled response => Normal (text response)
    | Rejected e => Throw e
    end
  /\ fst (generateImages ai prompt w)
     = match GenAI.generateImages ai (generateImages_request prompt) with
       | Fulfilled _ => Normal tt
       | Rejected e => Throw e
       end
  /\ imageGallery (snd (enhancePrompt ai textPrompt imageBase64 w))
     = imageGallery w
  /\ (forall e,
        GenAI.generateImages ai (generateImages_request prompt) = Rejected e ->
        imageGallery (snd (generateImages ai prompt w)) = imageGallery w).
Proof.
  rewrite enhancePrompt_run, generateImages_run. cbv zeta.
  repeat split.
  - now destruct (generateContent ai _).
  - now destruct (GenAI.generateImages ai _).
  - now destruct (generateContent ai _).
  - intros e He. now rewrite He.
Qed.

End Rendering.

(** ** Uploading and removing an image *)

Lemma first_request_of_run (ai : Models) (w : World) :
  has_input w = true ->
  content_requests (trace (snd (handleGeneration ai w)))
  = content_requests (trace w)
    ++ [enhancePrompt_request (promptInput_value w) (uploadedImageBase64 w)].
Proof.
  intros Hin. rewrite handleGeneration_run by assumption. cbn [snd].
  destruct (generateContent ai _) as [response | e];
    [destruct (GenAI.generateImages ai _) | ];
    fields; cbn; now rewrite ?app_nil_r.
Qed.

Lemma split_nonempty (separator : char16) (s : jsstring) :
  split separator s <> [].
Proof.
  induction s as [ | c s IH]; cbn; [discriminate | ].
  destruct (c =? separator)%N; [discriminate | ].
  now destruct (split separator s).
Qed.

Lemma split_comma_free (s : jsstring) :
  comma_free s = true -> split comma s = [s].
Proof.
  induction s as [ | c s IH]; cbn; [reflexivity | ].
  intros H. apply andb_true_iff in H as [Hc Hs].
  apply negb_true_iff in Hc. rewrite Hc, IH by assumption. reflexivity.
Qed.

Lemma split_at_first_comma (header rest : jsstring) :
  comma_free header = true ->
  split comma (header ++ comma :: rest) = header :: split comma rest.
Proof.
  induction header as [ | c header IH]; cbn; [reflexivity | ].
  intros H. apply andb_true_iff in H as [Hc Hs].
  apply negb_true_iff in Hc. rewrite Hc, IH by assumption. reflexivity.
Qed.

Section Uploads.

Variable File : Type.
Variable readAsDataURL : File -> option jsstring.

(** Uploading a file whose data URL is a header, a comma and a payload
    (neither of which holds a comma) stores exactly the payload, whatever
    was stored before, and makes the preview hold the image, shown by the
    whole data URL, followed by the removal button, whatever it held
    before; the file input keeps its value. *)
Theorem upload_stores_payload (file : File) (others : list File)
    (header payload : jsstring) (p : Page) (before : list PreviewNode) :
  imagePreviewContainer p = Some before ->
  readAsDataURL file = Some (header ++ comma :: payload) ->
  comma_free header = true ->
  comma_free payload = true ->
  let (completion, p') :=
    handleImageUpload readAsDataURL (Some (file :: others)) p in
  completion = Normal tt
  /\ uploadedImageBase64 (world p') = Some payload
  /\ imagePreviewContainer p'
     = Some [PreviewImage (header ++ comma :: payload);
             PreviewButton [215%N] (lit "remove-image-btn")]
  /\ imageUploadInput_value p' = imageUploadInput_value p.
Proof.
  intros Hp Hr Hh Hpay. unfold handleImageUpload. cbn [nth_error].
  rewrite Hp. unfold reader_onloadend. rewrite Hr, Hp.
  rewrite split_at_first_comma, split_comma_free by assumption.
  repeat split.
Qed.

(** A change event without a file, or on a page without preview container,
    does nothing at all: nothing is read and the page stays as it was. *)
Theorem upload_without_file_or_preview (files : option (list File))
    (p : Page) :
  files = None \/ files = Some [] \/ imagePreviewContainer p = None ->
  handleImageUpload readAsDataURL files p = (Normal tt, p).
Proof.
  unfold handleImageUpload.
  intros [-> | [-> | Hp] ]; try reflexivity.
  rewrite Hp. now destruct files as [ [ | file others] | ].
Qed.

(** When the data URL holds no comma, the preview shows the image but
    no encoding is stored, and what was stored before is lost: the input
    check of a later generation sees no image. *)
Theorem upload_without_comma_stores_nothing (file : File)
    (others : list File) (result : jsstring) (p : Page)
    (before : list PreviewNode) :
  imagePreviewContainer p = Some before ->
  readAsDataURL file = Some result ->
  comma_free result = true ->
  let p' := snd (handleImageUpload readAsDataURL (Some (file :: others)) p) in
  uploadedImageBase64 (world p') = None
  /\ imagePreviewContainer p'
     = Some [PreviewImage result;
             PreviewButton [215%N] (lit "remove-image-btn")]
  /\ has_input (world p') = truthy (trim (promptInput_value (world p))).
Proof.
  intros Hp Hr Hfree. unfold handleImageUpload. cbn [nth_error].
  rewrite Hp. unfold reader_onloadend. rewrite Hr, Hp.
  rewrite split_comma_free by assumption. cbn.
  repeat split. unfold has_input. cbn. apply orb_false_r.
Qed.

(** When the read fails, [reader.result] is null and the callback raises a
    TypeError before it changes anything: the stored image and the preview
    stay as they were. *)
Theorem failed_read_changes_nothing (file : File) (others : list File)
    (p : Page) (before : list PreviewNode) :
  imagePreviewContainer p = Some before ->
  readAsDataURL file = None ->
  exists message,
    handleImageUpload readAsDataURL (Some (file :: others)) p
    = (Throw (TypeError message), p).
Proof.
  intros Hp Hr. unfold handleImageUpload. cbn [nth_error].
  rewrite Hp. unfold reader_onloadend. rewrite Hr. eexists. reflexivity.
Qed.

(** An upload, whatever the file and however the read ends, leaves the
    prompt, the button, the gallery, the trace and the value of the file
    input as they were, and neither creates nor removes the preview
    container. *)
Theorem upload_touches_only_image_and_preview
    (files : option (list File)) (p : Page) :
  let p' := snd (handleImageUpload readAsDataURL files p) in
  promptInput_value (world p') = promptInput_value (world p)
  /\ generateBtn_disabled (world p') = generateBtn_disabled (world p)
  /\ generateBtn_textContent (world p') = generateBtn_textContent (world p)
  /\ imageGallery (world p') = imageGallery (world p)
  /\ trace (world p') = trace (world p)
  /\ imageUploadInput_value p' = imageUploadInput_value p
  /\ (imagePreviewContainer p' = None <-> imagePreviewContainer p = None).
Proof.
  cbv zeta. unfold handleImageUpload.
  destruct files as [ [ | file others] | ]; cbn [nth_error];
    try (repeat split; tauto).
  destruct (imagePreviewContainer p) as [before | ] eqn:Hp;
    [ | repeat split; tauto].
  unfold reader_onloadend. rewrite Hp.
  destruct (readAsDataURL file); cbn; rewrite ?Hp;
    repeat split; congruence.
Qed.

(** Removing the image right after an upload gives back the page as it was
    before the upload (no stored image, empty preview), except that the
    file input is reset to the empty value, so that the same file can be
    chosen again. *)
Theorem removal_undoes_upload (file : File) (others : list File)
    (result : jsstring) (p : Page) :
  imagePreviewContainer p = Some [] ->
  uploadedImageBase64 (world p) = None ->
  readAsDataURL file = Some result ->
  let uploaded :=
    snd (handleImageUpload readAsDataURL (Some (file :: others)) p) in
  removeBtn_onclick uploaded
  = (Normal tt,
     {| world := world p;
        imagePreviewContainer := Some [];
        imageUploadInput_value := [] |}).
Proof.
  intros Hp Hu Hr. cbv zeta. unfold handleImageUpload. cbn [nth_error].
  rewrite Hp. unfold reader_onloadend. rewrite Hr, Hp. cbn [snd].
  unfold removeBtn_onclick. cbn [imagePreviewContainer world].
  do 2 f_equal. destruct (world p); cbn in *. now subst.
Qed.

Variable ai : Models.

(** After an upload with a non-empty payload, a generation passes the
    input check even with an empty prompt, and its request to the text
    endpoint starts with the payload as inline data declared image/jpeg,
    whatever type the header of the data URL names. *)
Theorem uploaded_image_is_sent_as_jpeg (file : File) (others : list File)
    (header payload : jsstring) (p : Page) (before : list PreviewNode) :
  imagePreviewContainer p = Some before ->
  readAsDataURL file = Some (header ++ comma :: payload) ->
  comma_free header = true ->
  comma_free payload = true ->
  payload <> [] ->
  let uploaded :=
    snd (handleImageUpload readAsDataURL (Some (file :: others)) p) in
  let value := promptInput_value (world p) in
  content_requests
    (trace (world (snd (on_world (handleGeneration ai) uploaded))))
  = content_requests (trace (world p))
    ++ [{| content_model := lit "gemini-2.5-flash";
           contents :=
             {| parts :=
                  InlineData (lit "image/jpeg") payload
                  :: match value with [] => [] | _ :: _ => [Text value] end |};
           content_config := {| systemInstruction := system_instruction |} |}].
Proof.
  intros Hp Hr Hh Hpay Hne. cbv zeta.
  unfold handleImageUpload. cbn [nth_error].
  rewrite Hp. unfold reader_onloadend. rewrite Hr, Hp.
  rewrite split_at_first_comma, split_comma_free by assumption.
  cbn [nth_error snd]. unfold on_world. cbn [world].
  set (w1 := with_uploaded (Some payload) (world p)).
  assert (Hin : has_input w1 = true).
  { unfold has_input, w1. cbn. destruct payload; [contradiction | ].
    apply orb_true_r. }
  pose proof (first_request_of_run ai w1 Hin) as Hq.
  destruct (handleGeneration ai w1) as [r w']. cbn [snd world] in *.
  rewrite Hq. unfold w1. cbn [trace promptInput_value uploadedImageBase64
                               with_uploaded].
  do 2 f_equal. unfold enhancePrompt_request.
  destruct payload; [contradiction | ].
  now destruct (promptInput_value (world p)).
Qed.

(** Once the uploaded image is removed again, a generation with a prompt of
    white space only is refused as if nothing had ever been uploaded: the
    alert, and no remote call. *)
Theorem removed_image_is_not_used (file : File) (others : list File)
    (result : jsstring) (p : Page) (before : list PreviewNode) :
  imagePreviewContainer p = Some before ->
  readAsDataURL file = Some result ->
  forallb is_white_space (promptInput_value (world p)) = true ->
  let uploaded :=
    snd (handleImageUpload readAsDataURL (Some (file :: others)) p) in
  let removed := snd (removeBtn_onclick uploaded) in
  trace (world (snd (on_world (handleGeneration ai) removed)))
  = trace (world p) ++ [Alert validation_alert].
Proof.
  intros Hp Hr Hws. cbv zeta. unfold handleImageUpload. cbn [nth_error].
  rewrite Hp. unfold reader_onloadend. rewrite Hr, Hp. cbn [snd].
  unfold removeBtn_onclick. cbn [imagePreviewContainer world snd].
  unfold on_world. cbn [world].
  rewrite handleGeneration_without_input; [reflexivity | ].
  apply has_input_false. split; [exact Hws | reflexivity].
Qed.

End Uploads.

(** ** The further theorems at sample inputs *)

Lemma alert_exactly_for_blank_input_witness :
  has_input (idle "a cat" None (Some [])) = true
  /\ forallb is_white_space (promptInput_value blank_world) = true
  /\ trace (snd (handleGeneration failing_images blank_world))
     = [Alert validation_alert]
  /\ exists rest,
       trace (snd (handleGeneration failing_images (idle "a cat" None (Some []))))
       = CallGenerateContent (enhancePrompt_request (lit "a cat") None) :: rest.
Proof.
  split; [reflexivity | split; [reflexivity | split] ].
  - exact (proj1 (proj1 (alert_exactly_for_blank_input failing_images
                           blank_world))
             (conj eq_refl eq_refl)).
  - exact (proj2 (alert_exactly_for_blank_input failing_images
                    (idle "a cat" None (Some [])))
             eq_refl).
Defined.

Lemma handleGeneration_contains_every_failure_witness :
  fst (handleGeneration failing_images (idle "a cat" None None)) = Normal tt
  /\ imageGallery (snd (handleGeneration failing_images (idle "a cat" None None)))
     = None.
Proof.
  pose proof (handleGeneration_contains_every_failure failing_images
                (idle "a cat" None None)) as H.
  destruct (handleGeneration failing_images (idle "a cat" None None))
    as [completion w'].
  destruct H as (Hc & _ & _ & _ & Hg).
  exact (conj Hc (proj1 Hg eq_refl)).
Defined.


Lemma rejection_reason_is_logged_witness :
  let w := idle "a cat" None (Some []) in
  has_input w = true
  /\ trace (snd (handleGeneration failing_enhancement w))
     = [CallGenerateContent (enhancePrompt_request (lit "a cat") None);
        ConsoleError [ArgString (lit "Error during generation process:");
                      ArgError (ServiceError (lit "503"))]].
Proof.
  cbv zeta. split; [reflexivity | ].
  exact (proj1 (rejection_reason_is_logged failing_enhancement
                  (idle "a cat" None (Some [])) eq_refl)
           (ServiceError (lit "503")) eq_refl).
Defined.

Lemma image_request_needs_enhancement_witness :
  let ai := answering "X" three_pictures in
  let w := idle "a cat" None (Some []) in
  In (generateImages_request (lit "X"))
    (image_requests (trace (snd (handleGeneration ai w))))
  /\ (In (generateImages_request (lit "X")) (image_requests (trace w))
      \/ exists response,
           has_input w = true
           /\ generateContent ai
                (enhancePrompt_request (promptInput_value w)
                   (uploadedImageBase64 w))
              = Fulfilled response
           /\ generateImages_request (lit "X")
              = generateImages_request (text response)).
Proof.
  cbv zeta.
  assert (H : In (generateImages_request (lit "X"))
                (image_requests
                   (trace (snd (handleGeneration (answering "X" three_pictures)
                                  (idle "a cat" None (Some [])))))))
    by (left; reflexivity).
  split; [exact H | ].
  exact (image_request_needs_enhancement (answering "X" three_pictures)
           (idle "a cat" None (Some [])) (generateImages_request (lit "X")) H).
Defined.

Lemma generateImages_renders_entries_with_bytes_witness :
  let answer :=
    Some {| generatedImages :=
              Some [picture "AAAA"; no_bytes; picture "CCCC"] |} in
  GenAI.generateImages (answering "X" answer) (generateImages_request (lit "X"))
  = Fulfilled answer
  /\ imageGallery
       (snd (generateImages (answering "X" answer) (lit "X")
               (idle "a cat" None (Some [Markup analyzed_html]))))
     = Some [ImageElement (lit "data:image/jpeg;base64,AAAA")
               (lit "X... - Image 1");
             ImageElement (lit "data:image/jpeg;base64,CCCC")
               (lit "X... - Image 3")].
Proof.
  cbv zeta. split; [reflexivity | ].
  refine (generateImages_renders_entries_with_bytes
            (answering "X"
               (Some {| generatedImages :=
                          Some [picture "AAAA"; no_bytes; picture "CCCC"] |}))
            (lit "X") (idle "a cat" None (Some [Markup analyzed_html]))
            [Markup analyzed_html] [picture "AAAA"; no_bytes; picture "CCCC"]
            eq_refl _ eq_refl).
  discriminate.
Defined.

Lemma entries_without_bytes_leave_gallery_empty_witness :
  let answer := Some {| generatedImages := Some [no_bytes; no_bytes] |} in
  forallb (fun g => negb (has_bytes g)) [no_bytes; no_bytes] = true
  /\ imageGallery
       (snd (generateImages (answering "X" answer) (lit "X")
               (idle "a cat" None (Some [Markup analyzed_html]))))
     = Some [].
Proof.
  cbv zeta. split; [reflexivity | ].
  refine (proj2 (entries_without_bytes_leave_gallery_empty
                   (answering "X"
                      (Some {| generatedImages := Some [no_bytes; no_bytes] |}))
                   (lit "X") (idle "a cat" None (Some [Markup analyzed_html]))
                   [Markup analyzed_html] [no_bytes; no_bytes]
                   eq_refl _ eq_refl eq_refl)).
  discriminate.
Defined.

Lemma clients_propagate_rejections_witness :
  let w := idle "a cat" None (Some [Markup analyzed_html]) in
  GenAI.generateImages failing_images (generateImages_request (lit "X"))
  = Rejected (ServiceError (lit "503"))
  /\ imageGallery (snd (generateImages failing_images (lit "X") w))
     = imageGallery w.
Proof.
  cbv zeta. split; [reflexivity | ].
  exact (proj2 (proj2 (proj2 (clients_propagate_rejections failing_images
                                (lit "a cat") (lit "X") None
                                (idle "a cat" None (Some [Markup analyzed_html])))))
           (ServiceError (lit "503")) eq_refl).
Defined.

Lemma upload_stores_payload_witness :
  let header := lit "data:image/png;base64" in
  let payload := lit "iVBORw0KGgo=" in
  let file := Some (header ++ comma :: payload) in
  comma_free header = true
  /\ comma_free payload = true
  /\ uploadedImageBase64
       (world (snd (handleImageUpload reading (Some [file]) (blank_page "a cat"))))
     = Some payload.
Proof.
  cbv zeta. split; [reflexivity | split; [reflexivity | ] ].
  pose proof (upload_stores_payload _ reading
                (Some (lit "data:image/png;base64" ++ comma :: lit "iVBORw0KGgo="))
                [] (lit "data:image/png;base64") (lit "iVBORw0KGgo=")
                (blank_page "a cat") [] eq_refl eq_refl eq_refl eq_refl) as H.
  destruct (handleImageUpload reading _ (blank_page "a cat")) as [c p'].
  exact (proj1 (proj2 H)).
Defined.

Lemma upload_without_file_or_preview_witness :
  handleImageUpload reading (Some []) (blank_page "a cat")
  = (Normal tt, blank_page "a cat").
Proof.
  exact (upload_without_file_or_preview _ reading (Some []) (blank_page "a cat")
           (or_intror (or_introl eq_refl))).
Defined.

Lemma upload_without_comma_stores_nothing_witness :
  comma_free (lit "data:") = true
  /\ uploadedImageBase64
       (world (snd (handleImageUpload reading (Some [Some (lit "data:")])
                      (blank_page "a cat"))))
     = None.
Proof.
  split; [reflexivity | ].
  exact (proj1 (upload_without_comma_stores_nothing _ reading
                  (Some (lit "data:")) [] (lit "data:") (blank_page "a cat") []
                  eq_refl eq_refl eq_refl)).
Defined.

Lemma failed_read_changes_nothing_witness :
  reading None = None
  /\ exists message,
       handleImageUpload reading (Some [None]) (blank_page "a cat")
       = (Throw (TypeError message), blank_page "a cat").
Proof.
  split; [reflexivity | ].
  exact (failed_read_changes_nothing _ reading None [] (blank_page "a cat") []
           eq_refl eq_refl).
Defined.

Lemma upload_touches_only_image_and_preview_witness :
  imagePreviewContainer
    (snd (handleImageUpload reading (Some [Some png_data_url])
            {| world := idle "a cat" None None;
               imagePreviewContainer := None;
               imageUploadInput_value := [] |}))
  = None.
Proof.
  exact (proj2 (proj2 (proj2 (proj2 (proj2 (proj2 (proj2
           (upload_touches_only_image_and_preview _ reading
              (Some [Some png_data_url])
              {| world := idle "a cat" None None;
                 imagePreviewContainer := None;
                 imageUploadInput_value := [] |}))))))) eq_refl).
Defined.

Lemma removal_undoes_upload_witness :
  removeBtn_onclick
    (snd (handleImageUpload reading (Some [Some png_data_url])
            (blank_page "a cat")))
  = (Normal tt,
     {| world := idle "a cat" None (Some []);
        imagePreviewContainer := Some [];
        imageUploadInput_value := [] |}).
Proof.
  exact (removal_undoes_upload _ reading (Some png_data_url) [] png_data_url
           (blank_page "a cat") eq_refl eq_refl eq_refl).
Defined.

Lemma uploaded_image_is_sent_as_jpeg_witness :
  let header := lit "data:image/png;base64" in
  let payload := lit "iVBORw0KGgo=" in
  let uploaded :=
    snd (handleImageUpload reading (Some [Some (header ++ comma :: payload)])
           (blank_page "")) in
  map (fun q => parts (contents q))
    (content_requests
       (trace (world (snd (on_world (handleGeneration failing_images)
                             uploaded)))))
  = [[InlineData (lit "image/jpeg") payload]].
Proof.
  cbv zeta.
  refine (f_equal (map (fun q => parts (contents q)))
            (uploaded_image_is_sent_as_jpeg _ reading failing_images
               (Some (lit "data:image/png;base64" ++ comma :: lit "iVBORw0KGgo="))
               [] (lit "data:image/png;base64") (lit "iVBORw0KGgo=")
               (blank_page "") [] eq_refl eq_refl eq_refl eq_refl _)).
  discriminate.
Defined.

Lemma removed_image_is_not_used_witness :
  let uploaded :=
    snd (handleImageUpload reading (Some [Some png_data_url]) (blank_page "  ")) in
  forallb is_white_space (lit "  ") = true
  /\ trace
       (world (snd (on_world (handleGeneration failing_images)
                      (snd (removeBtn_onclick uploaded)))))
     = [Alert validation_alert].
Proof.
  cbv zeta. split; [reflexivity | ].
  exact (removed_image_is_not_used _ reading failing_images
           (Some png_data_url) [] png_data_url (blank_page "  ") []
           eq_refl eq_refl eq_refl).
Defined.
